(** * Training loop of [3_Training_Neural_Networks.ipynb]

    A shallow embedding of the loop of the notebook's "Training for real"
    cell, which drives the optimizer, the network, the criterion and
    autograd over the batches of [trainloader] for a fixed number of
    epochs.

    The tensor library, the network, the criterion, autograd and the
    optimizer are collaborators of the loop.  They are taken as operations
    on a framework state ([World]) that may return or raise, and may change
    the state either way, as a Python call can. *)

From Stdlib Require Import String.
From Stdlib Require Import List ZArith Lia Bool Arith QArith.
Import ListNotations.
Close Scope Q_scope.

Set Implicit Arguments.

(** ** Python outcomes *)

(** The exceptions that occur: the loop's own division raises
    [ZeroDivisionError]; the collaborators raise whatever they raise. *)
Inductive PyExn : Type :=
| ZeroDivisionError
| RuntimeError (msg : string)
| ValueError (msg : string)
| IndexError (msg : string).

(** An exception as it reaches the caller of the cell: the exception and,
    from its traceback, the line of the cell whose statement was running
    when it was raised.  No statement of the cell catches or re-raises, so
    the traceback entry of the cell is written once, where the exception
    leaves a statement. *)
Record Failure : Type := mkFailure {
  exn : PyExn;
  tb_lineno : nat
}.

(** A call on the framework state either returns a value or raises; in
    both cases the mutations done so far stay. *)
Inductive Res (S A : Type) : Type :=
| Returned (a : A) (s : S)
| Raised (e : PyExn) (s : S).

Arguments Returned {S A} a s.
Arguments Raised {S A} e s.

(** State reached by a call, whatever its outcome. *)
Definition final {S A} (r : Res S A) : S :=
  match r with
  | Returned _ s => s
  | Raised _ s => s
  end.

(** The stages of a training pass. *)
Inductive Stage : Type :=
| StZeroGrad
| StForward
| StLoss
| StBackward
| StStep.

(** [range(n)] for a Python int [n]: empty when [n <= 0]. *)
Definition range (n : Z) : list nat := seq 0 (Z.to_nat n).

(** The lines of the cell that can raise (line 1 of the cell is line 547
    of the notebook file): [images.view(...)], the five calls of the
    training pass, [loss.item()] and the [print] with its division. *)
Definition line_view : nat := 18.
Definition line_zero_grad : nat := 21.
Definition line_model : nat := 22.
Definition line_criterion : nat := 23.
Definition line_backward : nat := 24.
Definition line_step : nat := 25.
Definition line_item : nat := 27.
Definition line_print : nat := 29.

(** The stage whose statement stands at a line of the cell. *)
Definition stage_at (line : nat) : option Stage :=
  if Nat.eqb line line_zero_grad then Some StZeroGrad
  else if Nat.eqb line line_model then Some StForward
  else if Nat.eqb line line_criterion then Some StLoss
  else if Nat.eqb line line_backward then Some StBackward
  else if Nat.eqb line line_step then Some StStep
  else None.

(** The stage that an exception reaching the caller points at. *)
Definition failing_stage (f : Failure) : option Stage :=
  stage_at (tb_lineno f).

(** ** The collaborators *)

Section Driver.

(** [torch.Tensor]: images, labels, outputs and losses alike. *)
Variable Tensor : Type.
(** Everything the framework keeps: parameters, their [.grad], ... *)
Variable World : Type.
(** Python numbers: the int [0] that [running_loss] starts from and the
    floats that [loss.item()] yields. *)
Variable Scalar : Type.

Record Framework : Type := mkFramework {
  py_zero : Scalar;
  py_add : Scalar -> Scalar -> Scalar;
  (** [x / n] for a non-zero int [n] *)
  py_div : Scalar -> nat -> Scalar;
  (** [images.view(images.shape[0], -1)]: a new view of the tensor, or an
      exception when the tensor cannot be viewed so *)
  view : Tensor -> PyExn + Tensor;
  (** [loss.item()]: the number in a one-element tensor, or an exception *)
  item : Tensor -> PyExn + Scalar;
  (** [optimizer.zero_grad()] *)
  zero_grad : World -> Res World unit;
  (** [model(images)] *)
  model : Tensor -> World -> Res World Tensor;
  (** [criterion(output, labels)] *)
  criterion : Tensor -> Tensor -> World -> Res World Tensor;
  (** [loss.backward()] *)
  backward : Tensor -> World -> Res World unit;
  (** [optimizer.step()] *)
  step : World -> Res World unit
}.

Definition Batch : Type := (Tensor * Tensor)%type.

(** [trainloader]: the batches its [k]-th traversal yields (with
    [shuffle=True] traversals differ), and [len(trainloader)]. *)
Record DataLoader : Type := mkDataLoader {
  dl_iter : nat -> list Batch;
  dl_len : nat
}.

(** *** Runs

    A run of a piece of the cell ends by returning or raising, leaves a
    framework state, and has printed some lines.  It also carries the
    list of collaborator calls it made, each with the state it found and
    the state it left; nothing in the loop reads that list. *)

Inductive Call : Type :=
| ZeroGrad
| Forward (images : Tensor)
| Criterion (output labels : Tensor)
| Backward (loss : Tensor)
| Step.

Inductive Reply : Type :=
| RetNone
| RetTensor (t : Tensor)
| Exc (e : PyExn).

Record Event : Type := mkEvent {
  ev_call : Call;
  ev_before : World;
  ev_reply : Reply;
  ev_after : World
}.

Record Run (A : Type) : Type := mkRun {
  result : Failure + A;
  world_after : World;
  history : list Event;
  stdout : list Scalar
}.

Definition M (A : Type) : Type := World -> Run A.

Definition ret {A} (a : A) : M A := fun w => mkRun (inr a) w [] [].

(** An exception raised by the statement at [line]. *)
Definition raise_at {A} (line : nat) (e : PyExn) : M A :=
  fun w => mkRun (inl (mkFailure e line)) w [] [].

Definition bind {A B} (m : M A) (k : A -> M B) : M B :=
  fun w =>
    match m w with
    | mkRun (inr a) w1 h1 o1 =>
        match k a w1 with
        | mkRun res w2 h2 o2 => mkRun res w2 (h1 ++ h2) (o1 ++ o2)
        end
    | mkRun (inl f) w1 h1 o1 => mkRun (inl f) w1 h1 o1
    end.

Notation "x <- m ;; k" := (bind m (fun x => k))
  (at level 61, m at next level, right associativity).
Notation "m ;;; k" := (bind m (fun _ => k))
  (at level 61, right associativity).

(** The line of the cell on which each collaborator is called. *)
Definition line_of_call (c : Call) : nat :=
  match c with
  | ZeroGrad => line_zero_grad
  | Forward _ => line_model
  | Criterion _ _ => line_criterion
  | Backward _ => line_backward
  | Step => line_step
  end.

(** A call to a collaborator on the current framework state. *)
Definition invoke {X} (c : Call) (reply : X -> Reply)
    (f : World -> Res World X) : M X :=
  fun w =>
    match f w with
    | Returned x w' => mkRun (inr x) w' [mkEvent c w (reply x) w'] []
    | Raised e w' =>
        mkRun (inl (mkFailure e (line_of_call c))) w'
              [mkEvent c w (Exc e) w'] []
    end.

(** A tensor method that touches no framework state, at [line]. *)
Definition attempt {X} (line : nat) (r : PyExn + X) : M X :=
  match r with
  | inr x => ret x
  | inl e => raise_at line e
  end.

(** [print(f"Training loss: {v}")] *)
Definition print (v : Scalar) : M unit :=
  fun w => mkRun (inr tt) w [] [v].

Variable fw : Framework.
Variable trainloader : DataLoader.

Definition optimizer_zero_grad : M unit :=
  invoke ZeroGrad (fun _ => RetNone) (zero_grad fw).
Definition call_model (images : Tensor) : M Tensor :=
  invoke (Forward images) RetTensor (model fw images).
Definition call_criterion (output labels : Tensor) : M Tensor :=
  invoke (Criterion output labels) RetTensor (criterion fw output labels).
Definition loss_backward (loss : Tensor) : M unit :=
  invoke (Backward loss) (fun _ => RetNone) (backward fw loss).
Definition optimizer_step : M unit :=
  invoke Step (fun _ => RetNone) (step fw).

(** [running_loss/len(trainloader)], inside the [print] statement *)
Definition py_truediv (x : Scalar) (n : nat) : M Scalar :=
  if Nat.eqb n 0 then raise_at line_print ZeroDivisionError
  else ret (py_div fw x n).

(** ** The loop *)

(** The body of [for images, labels in trainloader]; returns the new
    [running_loss]. *)
Definition training_pass (b : Batch) (running_loss : Scalar) : M Scalar :=
  let '(images, labels) := b in
  images <- attempt line_view (view fw images) ;;
  optimizer_zero_grad ;;;
  output <- call_model images ;;
  loss <- call_criterion output labels ;;
  loss_backward loss ;;;
  optimizer_step ;;;
  value <- attempt line_item (item fw loss) ;;
  ret (py_add fw running_loss value).

Fixpoint for_batches (bs : list Batch) (running_loss : Scalar) : M Scalar :=
  match bs with
  | [] => ret running_loss
  | b :: bs' =>
      running_loss <- training_pass b running_loss ;;
      for_batches bs' running_loss
  end.

(** The [else] clause of the inner [for]; the loop has no [break], so it
    runs whenever the loop ends. *)
Definition report (running_loss : Scalar) : M unit :=
  mean <- py_truediv running_loss (dl_len trainloader) ;;
  print mean.

(** The body of [for e in range(epochs)]; its traversal of [trainloader]
    is the [e]-th that the cell makes. *)
Definition epoch (e : nat) : M unit :=
  let running_loss := py_zero fw in
  running_loss <- for_batches (dl_iter trainloader e) running_loss ;;
  report running_loss.

Fixpoint for_epochs (es : list nat) : M unit :=
  match es with
  | [] => ret tt
  | e :: es' => epoch e ;;; for_epochs es'
  end.

Definition train (epochs : Z) : M unit := for_epochs (range epochs).

(** ** Vocabulary for statements about runs *)

(** The calls of one pass over batch [b], where [x] is the view of its
    images, [o] what the model returned and [l] what the criterion
    returned. *)
Definition pass_calls (b : Batch) (x o l : Tensor) : list Call :=
  [ZeroGrad; Forward x; Criterion o (snd b); Backward l; Step].

Definition pass_replies (o l : Tensor) : list Reply :=
  [RetNone; RetTensor o; RetTensor l; RetNone; RetNone].

(** [evs] are the five calls of a pass over [b], all of which returned,
    the criterion having returned the loss [l]. *)
Definition pass_with_loss (b : Batch) (l : Tensor) (evs : list Event)
    : Prop :=
  exists x o,
    view fw (fst b) = inr x
    /\ map ev_call evs = pass_calls b x o l
    /\ map ev_reply evs = pass_replies o l.

(** [evs] is a pass over [b] that ran to its end: the five calls
    returned and [loss.item()] gave a number. *)
Definition complete_pass (b : Batch) (evs : list Event) : Prop :=
  exists l v, pass_with_loss b l evs /\ item fw l = inr v.

(** [evs] is a pass over [b] cut short by the failure [f]: the view
    raised before any call; or the first [n] calls returned and the next
    one raised; or the five calls returned and [loss.item()] raised.  No
    further call was made. *)
Inductive interrupted_pass (b : Batch) (f : Failure) (evs : list Event)
    : Prop :=
| view_raised e :
    view fw (fst b) = inl e ->
    evs = [] ->
    f = mkFailure e line_view ->
    interrupted_pass b f evs
| call_raised x o l n c e :
    view fw (fst b) = inr x ->
    nth_error (pass_calls b x o l) n = Some c ->
    map ev_call evs = firstn (S n) (pass_calls b x o l) ->
    map ev_reply evs = firstn n (pass_replies o l) ++ [Exc e] ->
    f = mkFailure e (line_of_call c) ->
    interrupted_pass b f evs
| item_raised l e :
    pass_with_loss b l evs ->
    item fw l = inl e ->
    f = mkFailure e line_item ->
    interrupted_pass b f evs.

(** One traversal that ran to its end: a complete pass per batch. *)
Definition epoch_passes (e : nat) (blocks : list (list Event)) : Prop :=
  Forall2 complete_pass (dl_iter trainloader e) blocks.

(** The passes completed so far in a traversal that did not end. *)
Definition epoch_begun (e : nat) (blocks : list (list Event)) : Prop :=
  Forall2 complete_pass (firstn (length blocks) (dl_iter trainloader e))
          blocks.

(** A traversal cut short by the failure [f]: some complete passes, then
    an interrupted one. *)
Definition epoch_interrupted (e : nat) (f : Failure) (evs : list Event)
    : Prop :=
  exists blocks partial b,
    evs = concat blocks ++ partial
    /\ epoch_begun e blocks
    /\ nth_error (dl_iter trainloader e) (length blocks) = Some b
    /\ interrupted_pass b f partial.

(** A traversal that ran to its end and whose mean then failed. *)
Definition epoch_without_mean (e : nat) (f : Failure) (evs : list Event)
    : Prop :=
  exists blocks,
    evs = concat blocks
    /\ epoch_passes e blocks
    /\ f = mkFailure ZeroDivisionError line_print
    /\ dl_len trainloader = 0.

(** What the collaborator did when it was called. *)
Definition reply_of {X} (reply : X -> Reply) (r : Res World X)
    : Reply * World :=
  match r with
  | Returned x w' => (reply x, w')
  | Raised e w' => (Exc e, w')
  end.

Definition perform (c : Call) (w : World) : Reply * World :=
  match c with
  | ZeroGrad => reply_of (fun _ => RetNone) (zero_grad fw w)
  | Forward x => reply_of RetTensor (model fw x w)
  | Criterion o y => reply_of RetTensor (criterion fw o y w)
  | Backward l => reply_of (fun _ => RetNone) (backward fw l w)
  | Step => reply_of (fun _ => RetNone) (step fw w)
  end.

(** The event records what the collaborator really did: its reply and
    the state it left are those of the collaborator applied to the state
    it found. *)
Definition faithful (ev : Event) : Prop :=
  perform (ev_call ev) (ev_before ev) = (ev_reply ev, ev_after ev).

(** Each call starts in the state the previous one left. *)
Fixpoint chained (w : World) (evs : list Event) (w' : World) : Prop :=
  match evs with
  | [] => w = w'
  | ev :: evs' => ev_before ev = w /\ chained (ev_after ev) evs' w'
  end.

Definition is_exc (r : Reply) : bool :=
  match r with
  | Exc _ => true
  | _ => false
  end.

(** No call in [evs] raised. *)
Definition clean (evs : list Event) : Prop :=
  Forall (fun ev => is_exc (ev_reply ev) = false) evs.

(** The failure [f] is that of the last call of [evs], the only one
    that raised. *)
Definition raised_by_last (f : Failure) (evs : list Event) : Prop :=
  exists done ev,
    evs = done ++ [ev] /\ clean done /\ ev_reply ev = Exc (exn f)
    /\ tb_lineno f = line_of_call (ev_call ev).



(** The losses the criterion returned, in call order. *)
Definition loss_of_event (ev : Event) : list Tensor :=
  match ev_call ev, ev_reply ev with
  | Criterion _ _, RetTensor l => [l]
  | _, _ => []
  end.

Definition losses_of (evs : list Event) : list Tensor :=
  flat_map loss_of_event evs.

(** The numbers [loss.item()] gives for the losses that have one. *)
Definition item_values (ls : list Tensor) : list Scalar :=
  flat_map (fun l => match item fw l with
                     | inr v => [v]
                     | inl _ => []
                     end) ls.

(** Sum of the losses' values from [0], in order, over [n]. *)
Definition mean_loss (evs : list Event) (n : nat) : Scalar :=
  py_div fw (fold_left (py_add fw) (item_values (losses_of evs))
                       (py_zero fw)) n.


End Driver.

(** ** What a history says about the data *)

(** The values that [f] picks from the calls of a history, in call
    order. *)
Definition select {Tensor World X : Type} (f : Call Tensor -> list X)
    (evs : list (Event Tensor World)) : list X :=
  flat_map (fun ev => f (ev_call ev)) evs.

(** The images the model was called on. *)
Definition forward_inputs {Tensor World : Type}
    (evs : list (Event Tensor World)) : list Tensor :=
  select (fun c => match c with Forward x => [x] | _ => [] end) evs.

(** The labels the criterion was called on. *)
Definition criterion_labels {Tensor World : Type}
    (evs : list (Event Tensor World)) : list Tensor :=
  select (fun c => match c with Criterion _ y => [y] | _ => [] end) evs.

(** How many times [optimizer.step()] was called. *)
Definition steps_made {Tensor World : Type}
    (evs : list (Event Tensor World)) : nat :=
  length (select (fun c => match c with Step _ => [tt] | _ => [] end) evs).

(** The batches of the traversals of [range(epochs)], in order. *)
Definition all_batches {Tensor : Type} (trainloader : DataLoader Tensor)
    (epochs : Z) : list (Batch Tensor) :=
  flat_map (dl_iter trainloader) (range epochs).


(** Two runs that end alike, print alike and leave the same parameters. *)
Definition agree {Tensor World Scalar Params A : Type}
    (params : World -> Params) (r1 r2 : Run Tensor World Scalar A) : Prop :=
  result r1 = result r2
  /\ stdout r1 = stdout r2
  /\ params (world_after r1) = params (world_after r2).

(** [optimizer.zero_grad()] leaves a state that the parameters alone
    determine: whatever else the framework kept is cleared. *)
Definition zero_grad_resets {Tensor World Scalar Params : Type}
    (fw : Framework Tensor World Scalar) (params : World -> Params) : Prop :=
  forall w1 w2, params w1 = params w2 -> zero_grad fw w1 = zero_grad fw w2.

(** ** A small instance

    One weight and one bias on integers: a linear model, the squared error
    as criterion, reverse-mode derivatives carried by the tensors, and
    gradient descent.  It runs the loop on concrete data. *)

Module Regression.

(** A value together with its derivatives in the weight and the bias. *)
Record T : Type := mkT { data : Z; d_weight : Z; d_bias : Z }.

Record W : Type := mkW { weight : Z; bias : Z; grad_w : Z; grad_b : Z }.

Definition params (w : W) : Z * Z := (weight w, bias w).

Definition leaf (x : Z) : T := mkT x 0 0.

Definition clear_grad (w : W) : Res W unit :=
  Returned tt (mkW (weight w) (bias w) 0 0).

Definition forward (x : T) (w : W) : Res W T :=
  Returned (mkT (weight w * data x + bias w) (data x) 1) w.

Definition mse (o y : T) (w : W) : Res W T :=
  let d := (data o - data y)%Z in
  Returned (mkT (d * d) (2 * d * d_weight o) (2 * d * d_bias o)) w.

Definition accumulate (l : T) (w : W) : Res W unit :=
  Returned tt (mkW (weight w) (bias w)
                   (grad_w w + d_weight l) (grad_b w + d_bias l)).

Definition sgd_step (lr : Z) (w : W) : Res W unit :=
  Returned tt (mkW (weight w - lr * grad_w w) (bias w - lr * grad_b w)
                   (grad_w w) (grad_b w)).

Definition mismatch : PyExn := RuntimeError "shape mismatch".

(** A model that rejects its input. *)
Definition forward_rejects (x : T) (w : W) : Res W T := Raised mismatch w.

(** A backward pass that rejects the loss. *)
Definition backward_rejects (l : T) (w : W) : Res W unit :=
  Raised mismatch w.

(** A view that works on the first kind of batch only. *)
Definition view_once (x : T) : PyExn + T :=
  if (data x =? 1)%Z then inr x
  else inl (RuntimeError "view size is not compatible").

Definition div (x : Q) (n : nat) : Q := Qred (x / inject_Z (Z.of_nat n)).

Definition value (l : T) : PyExn + Q := inr (inject_Z (data l)).

Definition plus (x y : Q) : Q := Qred (x + y).

Definition fw : Framework T W Q :=
  mkFramework 0%Q plus div (fun x => inr x) value
              clear_grad forward mse accumulate (sgd_step 1).

Definition fw_forward_rejects : Framework T W Q :=
  mkFramework 0%Q plus div (fun x => inr x) value
              clear_grad forward_rejects mse accumulate (sgd_step 1).

Definition fw_backward_rejects : Framework T W Q :=
  mkFramework 0%Q plus div (fun x => inr x) value
              clear_grad forward mse backward_rejects (sgd_step 1).

Definition fw_view_once : Framework T W Q :=
  mkFramework 0%Q plus div view_once value
              clear_grad forward mse accumulate (sgd_step 1).

(** Two batches per traversal, the same ones every time. *)
Definition two_batches : list (T * T) :=
  [(leaf 1, leaf 2); (leaf 2, leaf 3)].

Definition loader : DataLoader T := mkDataLoader (fun _ => two_batches) 2.

(** A loader over an empty dataset. *)
Definition empty_loader : DataLoader T := mkDataLoader (fun _ => []) 0.

(** A loader that yields the two batches but reports length [0]. *)
Definition unsized_loader : DataLoader T :=
  mkDataLoader (fun _ => two_batches) 0.


(** A loader that yields no batch but reports length [2]. *)
Definition hollow_loader : DataLoader T := mkDataLoader (fun _ => []) 2.

Definition w0 : W := mkW 0 0 0 0.

(** The same parameters as [w0], with gradients left over from earlier
    backward passes. *)
Definition w_stale : W := mkW 0 0 7 (-3).

End Regression.

(** * Properties of runs *)

Section RunFacts.

Variables Tensor World Scalar : Type.
Variable fw : Framework Tensor World Scalar.
Variable trainloader : DataLoader Tensor.

(** *** Chains of calls *)

Lemma chained_app (h1 h2 : list (Event Tensor World)) (w w1 w2 : World) :
  chained w h1 w1 -> chained w1 h2 w2 -> chained w (h1 ++ h2) w2.
Proof.
  revert w; induction h1 as [|ev h1 IH]; simpl; intros w H1 H2.
  - subst; assumption.
  - destruct H1 as [Hb H1]; split; [assumption | apply IH; assumption].
Qed.


(** *** Sequencing *)

Lemma bind_raised {A B} (m : M Tensor World Scalar A)
    (k : A -> M Tensor World Scalar B) (w : World) (f : Failure) :
  result (m w) = inl f ->
  bind m k w = mkRun (inl f) (world_after (m w)) (history (m w))
                     (stdout (m w)).
Proof.
  unfold bind; destruct (m w) as [[f'|a] w1 h1 o1]; simpl; intros [=].
  subst; reflexivity.
Qed.

Lemma bind_returned {A B} (m : M Tensor World Scalar A)
    (k : A -> M Tensor World Scalar B) (w : World) (a : A) :
  result (m w) = inr a ->
  bind m k w =
    mkRun (result (k a (world_after (m w))))
          (world_after (k a (world_after (m w))))
          (history (m w) ++ history (k a (world_after (m w))))
          (stdout (m w) ++ stdout (k a (world_after (m w)))).
Proof.
  unfold bind; destruct (m w) as [[f|a'] w1 h1 o1]; simpl; intros [=].
  subst; destruct (k a w1); reflexivity.
Qed.

(** *** One pass *)

Ltac faithful_events :=
  repeat (apply Forall_cons; [unfold faithful, perform; simpl;
    repeat match goal with H : _ = _ |- _ => rewrite H end; reflexivity|]);
  apply Forall_nil.

Ltac raised_at n x o l :=
  repeat split; [faithful_events|];
  eapply (@call_raised _ _ _ fw _ _ _ x o l n); eauto; reflexivity.

Lemma training_pass_run (b : Batch Tensor) (rl : Scalar) (w : World) :
  let r := training_pass fw b rl w in
  stdout r = []
  /\ chained w (history r) (world_after r)
  /\ Forall (faithful fw) (history r)
  /\ match result r with
     | inr rl' => exists l v, pass_with_loss fw b l (history r)
                              /\ item fw l = inr v
                              /\ rl' = py_add fw rl v
     | inl f => interrupted_pass fw b f (history r)
     end.
Proof.
  destruct b as [images labels].
  unfold training_pass, bind, attempt, raise_at, optimizer_zero_grad,
    call_model, call_criterion, loss_backward, optimizer_step, invoke, ret;
    simpl.
  destruct (view fw images) as [e|x] eqn:Ev; simpl.
  { repeat split; [constructor|].
    eapply view_raised; eauto. }
  destruct (zero_grad fw w) as [[] w1|e w1] eqn:E0; simpl.
  2:{ raised_at 0 x x x. }
  destruct (model fw x w1) as [output w2|e w2] eqn:E1; simpl.
  2:{ raised_at 1 x x x. }
  destruct (criterion fw output labels w2) as [loss w3|e w3] eqn:E2; simpl.
  2:{ raised_at 2 x output x. }
  destruct (backward fw loss w3) as [[] w4|e w4] eqn:E3; simpl.
  2:{ raised_at 3 x output loss. }
  destruct (step fw w4) as [[] w5|e w5] eqn:E4; simpl.
  2:{ raised_at 4 x output loss. }
  assert (Hp : pass_with_loss fw (images, labels) loss
                 [mkEvent (ZeroGrad Tensor) w (RetNone Tensor) w1;
                  mkEvent (Forward x) w1 (RetTensor output) w2;
                  mkEvent (Criterion output labels) w2 (RetTensor loss) w3;
                  mkEvent (Backward loss) w3 (RetNone Tensor) w4;
                  mkEvent (Step Tensor) w4 (RetNone Tensor) w5]).
  { exists x, output; repeat split; assumption. }
  destruct (item fw loss) as [e|v] eqn:Ei; simpl.
  - repeat split; [faithful_events|].
    eapply item_raised; eauto.
  - repeat split; [faithful_events|].
    exists loss, v; repeat split; assumption.
Qed.

(** *** Losses of a pass *)

Lemma losses_of_app (h1 h2 : list (Event Tensor World)) :
  losses_of (h1 ++ h2) = losses_of h1 ++ losses_of h2.
Proof. unfold losses_of; apply flat_map_app. Qed.

Lemma pass_losses (b : Batch Tensor) (l : Tensor)
    (evs : list (Event Tensor World)) :
  pass_with_loss fw b l evs -> losses_of evs = [l].
Proof.
  intros [x [o [_ [Hc Hr]]]]. unfold pass_calls in Hc.
  unfold pass_replies in Hr.
  do 5 (destruct evs as [|[? ? ? ?] evs]; [discriminate Hc|]).
  destruct evs; [|discriminate Hc].
  simpl in Hc, Hr. injection Hc as -> -> -> -> ->.
  injection Hr as -> -> -> -> ->. reflexivity.
Qed.

Lemma item_values_app (l1 l2 : list Tensor) :
  item_values fw (l1 ++ l2) = item_values fw l1 ++ item_values fw l2.
Proof. unfold item_values; apply flat_map_app. Qed.

Lemma item_values_one (l : Tensor) (v : Scalar) :
  item fw l = inr v -> item_values fw [l] = [v].
Proof. intros H. unfold item_values; simpl. rewrite H. reflexivity. Qed.

(** *** One traversal *)

Lemma for_batches_run (bs : list (Batch Tensor)) (rl : Scalar) (w : World) :
  let r := for_batches fw bs rl w in
  stdout r = []
  /\ chained w (history r) (world_after r)
  /\ Forall (faithful fw) (history r)
  /\ exists blocks,
       Forall2 (complete_pass fw) (firstn (length blocks) bs) blocks
       /\ match result r with
          | inr rl' =>
              history r = concat blocks
              /\ length blocks = length bs
              /\ rl' = fold_left (py_add fw)
                         (item_values fw (losses_of (concat blocks))) rl
          | inl f =>
              exists partial b,
                history r = concat blocks ++ partial
                /\ nth_error bs (length blocks) = Some b
                /\ interrupted_pass fw b f partial
          end.
Proof.
  revert rl w; induction bs as [|b bs IH]; intros rl w; simpl.
  - repeat split; [constructor|]. exists []; simpl; repeat split.
    constructor.
  - destruct (training_pass_run b rl w) as [Ho [Hc [Hf Hres]]].
    destruct (result (training_pass fw b rl w)) as [f|rl'] eqn:E.
    + rewrite (bind_raised _ _ _ E); simpl.
      repeat split; try assumption.
      exists []; simpl; split; [constructor|].
      exists (history (training_pass fw b rl w)), b; repeat split.
      assumption.
    + rewrite (bind_returned _ _ _ E); simpl.
      destruct Hres as [l [v [Hpass [Hv ->]]]].
      destruct (IH (py_add fw rl v)
                   (world_after (training_pass fw b rl w)))
        as [Ho' [Hc' [Hf' [blocks [Hb Hres']]]]].
      repeat split.
      * rewrite Ho, Ho'; reflexivity.
      * eapply chained_app; eassumption.
      * apply Forall_app; split; assumption.
      * exists (history (training_pass fw b rl w) :: blocks); simpl; split.
        { constructor; [exists l, v; split; assumption | assumption]. }
        destruct (result (for_batches fw bs (py_add fw rl v)
                    (world_after (training_pass fw b rl w)))) as [f|rl''].
        { destruct Hres' as [partial [b' [Hh [Hn Hi]]]].
          exists partial, b'; repeat split; try assumption.
          rewrite Hh, app_assoc; reflexivity. }
        { destruct Hres' as [Hh [Hl ->]]. repeat split.
          - rewrite Hh; reflexivity.
          - rewrite Hl; reflexivity.
          - rewrite losses_of_app, (pass_losses Hpass), item_values_app,
              (item_values_one _ Hv). reflexivity. }
Qed.

(** *** One epoch *)

Lemma report_run (rl : Scalar) (w : World) :
  report fw trainloader rl w =
    if Nat.eqb (dl_len trainloader) 0
    then mkRun (inl (mkFailure ZeroDivisionError line_print)) w [] []
    else mkRun (inr tt) w [] [py_div fw rl (dl_len trainloader)].
Proof.
  unfold report, bind, py_truediv.
  destruct (Nat.eqb (dl_len trainloader) 0); reflexivity.
Qed.

Lemma epoch_run (e : nat) (w : World) :
  let r := epoch fw trainloader e w in
  chained w (history r) (world_after r)
  /\ Forall (faithful fw) (history r)
  /\ match result r with
     | inr _ =>
         exists blocks,
           history r = concat blocks
           /\ epoch_passes fw trainloader e blocks
           /\ dl_len trainloader <> 0
           /\ stdout r = [mean_loss fw (concat blocks) (dl_len trainloader)]
     | inl f =>
         stdout r = []
         /\ (epoch_interrupted fw trainloader e f (history r)
             \/ epoch_without_mean fw trainloader e f (history r))
     end.
Proof.
  unfold epoch.
  destruct (for_batches_run (dl_iter trainloader e) (py_zero fw) w)
    as [Ho [Hc [Hf [blocks [Hb Hres]]]]].
  destruct (result (for_batches fw (dl_iter trainloader e) (py_zero fw) w))
    as [f|rl] eqn:E.
  - rewrite (bind_raised _ _ _ E); simpl.
    repeat split; try assumption.
    destruct Hres as [partial [b [Hh [Hn Hi]]]].
    left; exists blocks, partial, b; repeat split; assumption.
  - rewrite (bind_returned _ _ _ E), report_run.
    destruct Hres as [Hh [Hl ->]].
    assert (Hp : epoch_passes fw trainloader e blocks).
    { unfold epoch_passes. rewrite Hl, firstn_all in Hb. exact Hb. }
    destruct (Nat.eqb (dl_len trainloader) 0) eqn:En; simpl;
      rewrite !app_nil_r.
    + apply Nat.eqb_eq in En. repeat split; try assumption.
      right; exists blocks; repeat split; assumption.
    + apply Nat.eqb_neq in En. repeat split; try assumption.
      exists blocks; repeat split; try assumption.
      rewrite Ho; reflexivity.
Qed.

(** *** All epochs *)

Lemma for_epochs_run (es : list nat) (w : World) :
  let r := for_epochs fw trainloader es w in
  chained w (history r) (world_after r)
  /\ Forall (faithful fw) (history r)
  /\ exists eblocks,
       Forall2 (epoch_passes fw trainloader)
               (firstn (length eblocks) es) eblocks
       /\ stdout r = map (fun blocks =>
                            mean_loss fw (concat blocks)
                                      (dl_len trainloader)) eblocks
       /\ match result r with
          | inr _ =>
              history r = concat (map (@concat _) eblocks)
              /\ length eblocks = length es
          | inl f =>
              exists e rest,
                nth_error es (length eblocks) = Some e
                /\ history r = concat (map (@concat _) eblocks) ++ rest
                /\ (epoch_interrupted fw trainloader e f rest
                    \/ epoch_without_mean fw trainloader e f rest)
          end.
Proof.
  revert w; induction es as [|e es IH]; intros w; simpl.
  - repeat split; [constructor|]. exists []; simpl; repeat split.
    constructor.
  - destruct (epoch_run e w) as [Hc [Hf Hres]].
    destruct (result (epoch fw trainloader e w)) as [f|[]] eqn:E.
    + rewrite (bind_raised _ _ _ E); simpl.
      repeat split; try assumption.
      destruct Hres as [Ho Hab].
      exists []; simpl; repeat split; [constructor | assumption |].
      exists e, (history (epoch fw trainloader e w)); repeat split.
      assumption.
    + rewrite (bind_returned _ _ _ E); simpl.
      destruct Hres as [blocks [Hh [Hp [Hn Ho]]]].
      destruct (IH (world_after (epoch fw trainloader e w)))
        as [Hc' [Hf' [eblocks [Hb [Ho' Hres']]]]].
      repeat split.
      * eapply chained_app; eassumption.
      * apply Forall_app; split; assumption.
      * exists (blocks :: eblocks); simpl; repeat split.
        { constructor; assumption. }
        { rewrite Ho, Ho'; reflexivity. }
        destruct (result (for_epochs fw trainloader es
                    (world_after (epoch fw trainloader e w)))) as [f|[]].
        { destruct Hres' as [e' [rest [Hn' [Hh' Hab]]]].
          exists e', rest; repeat split; try assumption.
          rewrite Hh, Hh', app_assoc; reflexivity. }
        { destruct Hres' as [Hh' Hl]. split.
          - rewrite Hh, Hh'; reflexivity.
          - rewrite Hl; reflexivity. }
Qed.

(** *** Where exceptions sit in a history *)

Lemma clean_replies (evs : list (Event Tensor World)) :
  clean evs <->
  Forall (fun r => is_exc r = false) (map (@ev_reply _ _) evs).
Proof. unfold clean; symmetry; apply Forall_map. Qed.

Lemma pass_with_loss_clean (b : Batch Tensor) (l : Tensor)
    (evs : list (Event Tensor World)) :
  pass_with_loss fw b l evs -> clean evs.
Proof.
  intros [x [o [_ [_ Hr]]]]. apply clean_replies. rewrite Hr.
  repeat constructor.
Qed.

Lemma complete_pass_clean (b : Batch Tensor)
    (evs : list (Event Tensor World)) :
  complete_pass fw b evs -> clean evs.
Proof. intros [l [v [Hp _]]]. eapply pass_with_loss_clean; exact Hp. Qed.

Lemma passes_clean (bs : list (Batch Tensor))
    (blocks : list (list (Event Tensor World))) :
  Forall2 (complete_pass fw) bs blocks -> clean (concat blocks).
Proof.
  induction 1 as [|b evs bs blocks Hp _ IH]; simpl.
  - constructor.
  - apply Forall_app; split; [eapply complete_pass_clean; eassumption|].
    exact IH.
Qed.

Lemma epochs_clean (es : list nat)
    (eblocks : list (list (list (Event Tensor World)))) :
  Forall2 (epoch_passes fw trainloader) es eblocks ->
  clean (concat (map (@concat _) eblocks)).
Proof.
  induction 1 as [|e blocks es eblocks Hp _ IH]; simpl.
  - constructor.
  - apply Forall_app; split; [eapply passes_clean; exact Hp | exact IH].
Qed.

Lemma firstn_S_nth {A} (l : list A) (n : nat) (c : A) :
  nth_error l n = Some c -> firstn (S n) l = firstn n l ++ [c].
Proof.
  revert n; induction l as [|a l IH]; intros [|n] H; try discriminate.
  - injection H as ->. reflexivity.
  - simpl in H. change (a :: firstn (S n) l = a :: (firstn n l ++ [c])).
    f_equal. apply IH. exact H.
Qed.

Lemma interrupted_pass_shape (b : Batch Tensor) (f : Failure)
    (evs : list (Event Tensor World)) :
  interrupted_pass fw b f evs ->
  (clean evs /\ stage_at (tb_lineno f) = None) \/ raised_by_last f evs.
Proof.
  intros [e Hv -> ->|x o l n c e Hv Hn Hc Hr ->|l e Hp Hi ->].
  - left. split; [constructor | reflexivity].
  - right. apply map_eq_app in Hr. destruct Hr as [done [tl [-> [Hd Ht]]]].
    destruct tl as [|ev tl]; [discriminate Ht|].
    destruct tl; [|discriminate Ht].
    injection Ht as Ht.
    exists done, ev; simpl; repeat split; try assumption.
    + apply clean_replies. rewrite Hd. unfold pass_replies.
      do 5 (destruct n as [|n]; [simpl; repeat constructor|]).
      destruct n; discriminate Hn.
    + rewrite map_app, (firstn_S_nth _ _ Hn) in Hc. simpl in Hc.
      apply app_inj_tail in Hc. destruct Hc as [_ ->]. reflexivity.
  - left. split; [eapply pass_with_loss_clean; exact Hp | reflexivity].
Qed.

Lemma epoch_interrupted_shape (e : nat) (f : Failure)
    (evs : list (Event Tensor World)) :
  epoch_interrupted fw trainloader e f evs ->
  (clean evs /\ stage_at (tb_lineno f) = None) \/ raised_by_last f evs.
Proof.
  intros [blocks [partial [b [-> [Hb [_ Hi]]]]]].
  pose proof (passes_clean Hb) as Hcb.
  destruct (interrupted_pass_shape Hi)
    as [[Hc Hs]|[done [ev [-> [Hc [Hr Hl]]]]]].
  - left. split; [apply Forall_app; split; assumption | exact Hs].
  - right. exists (concat blocks ++ done), ev; repeat split.
    + rewrite app_assoc; reflexivity.
    + apply Forall_app; split; assumption.
    + exact Hr.
    + exact Hl.
Qed.

Lemma epoch_without_mean_clean (e : nat) (f : Failure)
    (evs : list (Event Tensor World)) :
  epoch_without_mean fw trainloader e f evs ->
  clean evs /\ stage_at (tb_lineno f) = None.
Proof.
  intros [blocks [-> [Hp [-> _]]]].
  split; [eapply passes_clean; exact Hp | reflexivity].
Qed.

(** In a run at most one call raised, the last one, and the run ends with
    its exception, marked with the line of that call. *)
Lemma run_failure_shape (es : list nat) (w : World) :
  let r := for_epochs fw trainloader es w in
  match result r with
  | inr _ => clean (history r)
  | inl f =>
      (clean (history r) /\ stage_at (tb_lineno f) = None)
      \/ raised_by_last f (history r)
  end.
Proof.
  destruct (for_epochs_run es w) as [_ [_ [eblocks [Hb [_ Hres]]]]].
  simpl. destruct (result (for_epochs fw trainloader es w)) as [f|[]].
  - destruct Hres as [e [rest [_ [Hh Hab]]]].
    assert (Hce : clean (concat (map (@concat _) eblocks)))
      by (eapply epochs_clean; exact Hb).
    assert (Hsh : (clean rest /\ stage_at (tb_lineno f) = None)
                  \/ raised_by_last f rest).
    { destruct Hab as [Hi|Hm];
        [apply (epoch_interrupted_shape Hi)
        | left; apply (epoch_without_mean_clean Hm)]. }
    destruct Hsh as [[Hc Hs]|[done [ev [-> [Hc [Hr Hl]]]]]].
    + left. split; [rewrite Hh; apply Forall_app; split; assumption|].
      exact Hs.
    + right. exists (concat (map (@concat _) eblocks) ++ done), ev.
      repeat split; try assumption.
      * rewrite Hh, app_assoc; reflexivity.
      * apply Forall_app; split; assumption.
  - destruct Hres as [-> _]. eapply epochs_clean; exact Hb.
Qed.



(** *** Losses of a traversal *)


(** ** Properties of the loop *)

(** C1: every run of the loop is, epoch after epoch and batch after
    batch, the five calls [optimizer.zero_grad()], [model(images)],
    [criterion(output, labels)], [loss.backward()], [optimizer.step()] in
    this order, each really made (the reply and the state recorded are
    those of the collaborator applied to the state the previous call
    left), where the model gets the view of this batch's images, the
    criterion the output the model returned in this pass and this batch's
    labels, and the backward pass runs on the loss the criterion returned
    in this pass; the passes follow one another without overlap.  A run
    that raises has the same shape up to the statement that raised. *)
Theorem train_calls_in_order (epochs : Z) (w : World) :
  let r := train fw trainloader epochs w in
  chained w (history r) (world_after r)
  /\ Forall (faithful fw) (history r)
  /\ exists eblocks,
       Forall2 (epoch_passes fw trainloader)
               (firstn (length eblocks) (range epochs)) eblocks
       /\ match result r with
          | inr _ =>
              history r = concat (map (@concat _) eblocks)
              /\ length eblocks = length (range epochs)
          | inl f =>
              exists e rest,
                nth_error (range epochs) (length eblocks) = Some e
                /\ history r = concat (map (@concat _) eblocks) ++ rest
                /\ (epoch_interrupted fw trainloader e f rest
                    \/ epoch_without_mean fw trainloader e f rest)
          end.
Proof.
  unfold train.
  destruct (for_epochs_run (range epochs) w)
    as [Hc [Hf [eblocks [Hb [_ Hres]]]]].
  split; [exact Hc|]. split; [exact Hf|].
  exists eblocks; split; assumption.
Qed.



(** C4: with [epochs <= 0] the loop returns at once: nothing is printed,
    no collaborator is called, and the framework state, parameters
    included, is the one it started from. *)
Theorem train_nonpositive_epochs (epochs : Z) (w : World) :
  (epochs <= 0)%Z ->
  train fw trainloader epochs w = mkRun (inr tt) w [] [].
Proof.
  intros H. unfold train, range.
  replace (Z.to_nat epochs) with 0 by lia. reflexivity.
Qed.

(** C5 (as the loop has it): the division that gives the epoch's mean is
    defined exactly when [len(trainloader)] is not zero, whatever the
    number of batches the traversal yields.  With a non-zero length an
    epoch fails only inside its traversal.  With length zero an epoch
    cannot return: it prints nothing and ends either with a failure of
    its traversal or, every pass having run to its end, with
    [ZeroDivisionError] from the line of the [print].  The loop does not
    catch the failure of an epoch: it is the failure of the run. *)
Theorem mean_defined_iff_len_nonzero (e : nat) (w : World) :
  let r := epoch fw trainloader e w in
  (dl_len trainloader <> 0 ->
   (forall rl w',
      report fw trainloader rl w' =
        mkRun (inr tt) w' [] [py_div fw rl (dl_len trainloader)])
   /\ forall f, result r = inl f ->
        epoch_interrupted fw trainloader e f (history r))
  /\ (dl_len trainloader = 0 ->
      exists f,
        result r = inl f /\ stdout r = []
        /\ (epoch_interrupted fw trainloader e f (history r)
            \/ (f = mkFailure ZeroDivisionError line_print
                /\ exists blocks,
                     history r = concat blocks
                     /\ epoch_passes fw trainloader e blocks)))
  /\ (forall f es,
        result r = inl f ->
        for_epochs fw trainloader (e :: es) w =
          mkRun (inl f) (world_after r) (history r) (stdout r)).
Proof.
  destruct (epoch_run e w) as [_ [_ Hres]]. simpl.
  split; [|split].
  - intros Hn. split.
    + intros rl w'. rewrite report_run.
      destruct (Nat.eqb (dl_len trainloader) 0) eqn:E; [|reflexivity].
      apply Nat.eqb_eq in E. contradiction.
    + intros f Hr. rewrite Hr in Hres. destruct Hres as [_ [Hi|Hm]];
        [exact Hi|]. destruct Hm as [_ [_ [_ [_ Hz]]]]. contradiction.
  - intros Hz. destruct (result (epoch fw trainloader e w)) as [f|[]].
    + exists f. destruct Hres as [Ho [Hi|Hm]].
      * repeat split; auto.
      * repeat split; auto. right.
        destruct Hm as [blocks [Hh [Hp [Hf _]]]].
        split; [exact Hf|]. exists blocks; split; assumption.
    + destruct Hres as [blocks [_ [_ [Hn _]]]]. contradiction.
  - intros f es Hr. simpl. apply bind_raised. exact Hr.
Qed.


End RunFacts.

(** * More about runs *)

Section Sequencing.

Variables Tensor World Scalar : Type.

Lemma bind_ret_l {A B} (a : A) (k : A -> M Tensor World Scalar B)
    (w : World) :
  bind (@ret Tensor World Scalar A a) k w = k a w.
Proof. unfold bind, ret. destruct (k a w); reflexivity. Qed.

Lemma bind_assoc {A B C} (m : M Tensor World Scalar A)
    (k : A -> M Tensor World Scalar B) (h : B -> M Tensor World Scalar C)
    (w : World) :
  bind (bind m k) h w = bind m (fun a => bind (k a) h) w.
Proof.
  unfold bind. destruct (m w) as [[f|a] w1 h1 o1]; [reflexivity|].
  destruct (k a w1) as [[f|b] w2 h2 o2]; [reflexivity|].
  destruct (h b w2) as [res w3 h3 o3]. rewrite !app_assoc. reflexivity.
Qed.

Lemma bind_ext {A B} (m : M Tensor World Scalar A)
    (k1 k2 : A -> M Tensor World Scalar B) (w : World) :
  (forall a w', k1 a w' = k2 a w') -> bind m k1 w = bind m k2 w.
Proof.
  intros H. unfold bind. destruct (m w) as [[f|a] w1 h1 o1]; [reflexivity|].
  rewrite H. reflexivity.
Qed.

Variable fw : Framework Tensor World Scalar.
Variable trainloader : DataLoader Tensor.

Lemma for_epochs_app (es1 es2 : list nat) (w : World) :
  for_epochs fw trainloader (es1 ++ es2) w =
    bind (for_epochs fw trainloader es1)
         (fun _ => for_epochs fw trainloader es2) w.
Proof.
  revert w; induction es1 as [|e es1 IH]; intros w; simpl.
  - rewrite bind_ret_l. reflexivity.
  - rewrite bind_assoc. apply bind_ext. intros _ w'. apply IH.
Qed.

(** X1: a run of [a + b] epochs is a run of [a] epochs followed, from the
    state it reached, by the epochs [a], ..., [a + b - 1]: the calls and
    the printed means of the two parts follow one another; when the first
    part raises, the longer run is that first part and nothing more. *)
Theorem train_resumes (a b : Z) (w : World) :
  (0 <= a)%Z -> (0 <= b)%Z ->
  train fw trainloader (a + b) w =
    bind (train fw trainloader a)
         (fun _ => for_epochs fw trainloader (seq (Z.to_nat a) (Z.to_nat b)))
         w.
Proof.
  intros Ha Hb. unfold train, range.
  rewrite Z2Nat.inj_add by assumption.
  rewrite seq_app, for_epochs_app. reflexivity.
Qed.

(** X2: the loop has printed as many means as [range(epochs)] has
    elements exactly when it returned; a run that raised has printed
    strictly fewer. *)
Theorem printed_lines_tell_completion (epochs : Z) (w : World) :
  let r := train fw trainloader epochs w in
  (result r = inr tt /\ length (stdout r) = Z.to_nat epochs)
  \/ (exists ex, result r = inl ex
                 /\ length (stdout r) < Z.to_nat epochs).
Proof.
  unfold train; simpl.
  destruct (for_epochs_run fw trainloader (range epochs) w)
    as [_ [_ [eblocks [_ [Ho Hres]]]]].
  assert (Hlen : length (range epochs) = Z.to_nat epochs)
    by (unfold range; apply length_seq).
  rewrite Ho, length_map, <- Hlen.
  destruct (result (for_epochs fw trainloader (range epochs) w))
    as [f|[]].
  - right. exists f; split; [reflexivity|].
    destruct Hres as [e [rest [Hn _]]].
    apply nth_error_Some; congruence.
  - left. destruct Hres as [_ Hl]. split; [reflexivity | exact Hl].
Qed.

End Sequencing.

(** ** The data a run has used *)

Section DataFlow.

Variables Tensor World Scalar : Type.
Variable fw : Framework Tensor World Scalar.
Variable trainloader : DataLoader Tensor.

Lemma select_app {X} (f : Call Tensor -> list X)
    (h1 h2 : list (Event Tensor World)) :
  select f (h1 ++ h2) = select f h1 ++ select f h2.
Proof. unfold select; apply flat_map_app. Qed.

Lemma select_calls {X} (f : Call Tensor -> list X)
    (evs : list (Event Tensor World)) :
  select f evs = flat_map f (map (@ev_call _ _) evs).
Proof.
  induction evs as [|ev evs IH]; simpl; [reflexivity|].
  rewrite <- IH; reflexivity.
Qed.

Lemma flat_map_single {A B} (h : A -> B) (l : list A) :
  flat_map (fun x => [h x]) l = map h l.
Proof. induction l as [|x l IH]; simpl; [|rewrite IH]; reflexivity. Qed.

Section Selected.

Variable X : Type.
Variable f : Call Tensor -> list X.
Variable g : Batch Tensor -> list X.
Hypothesis Hpass : forall b x o l, flat_map f (pass_calls b x o l) = g b.

Lemma select_complete_pass (b : Batch Tensor)
    (evs : list (Event Tensor World)) :
  complete_pass fw b evs -> select f evs = g b.
Proof.
  intros [l [v [[x [o [_ [Hc _]]]] _]]]. rewrite select_calls, Hc.
  apply Hpass.
Qed.

Lemma select_passes (bs : list (Batch Tensor))
    (blocks : list (list (Event Tensor World))) :
  Forall2 (complete_pass fw) bs blocks ->
  select f (concat blocks) = flat_map g bs.
Proof.
  induction 1 as [|b evs bs blocks Hp _ IH]; simpl; [reflexivity|].
  rewrite select_app, (@select_complete_pass _ _ Hp), IH. reflexivity.
Qed.

Lemma select_epochs (es : list nat)
    (eblocks : list (list (list (Event Tensor World)))) :
  Forall2 (epoch_passes fw trainloader) es eblocks ->
  select f (concat (map (@concat _) eblocks)) =
    flat_map g (flat_map (dl_iter trainloader) es).
Proof.
  induction 1 as [|e blocks es eblocks Hp _ IH]; simpl; [reflexivity|].
  rewrite select_app, (@select_passes _ _ Hp), IH, flat_map_app.
  reflexivity.
Qed.

End Selected.

(** *** The images the model has seen *)

Lemma forward_inputs_app (h1 h2 : list (Event Tensor World)) :
  forward_inputs (h1 ++ h2) = forward_inputs h1 ++ forward_inputs h2.
Proof. apply select_app. Qed.

Lemma pass_inputs (b : Batch Tensor) (l : Tensor)
    (evs : list (Event Tensor World)) :
  pass_with_loss fw b l evs ->
  map (@inr PyExn Tensor) (forward_inputs evs) = [view fw (fst b)].
Proof.
  intros [x [o [Hv [Hc _]]]]. unfold forward_inputs.
  rewrite select_calls, Hc, Hv. reflexivity.
Qed.

Lemma passes_inputs (bs : list (Batch Tensor))
    (blocks : list (list (Event Tensor World))) :
  Forall2 (complete_pass fw) bs blocks ->
  map (@inr PyExn Tensor) (forward_inputs (concat blocks))
  = map (fun b => view fw (fst b)) bs.
Proof.
  induction 1 as [|b evs bs blocks [l [v [Hp _]]] _ IH]; simpl;
    [reflexivity|].
  rewrite forward_inputs_app, map_app, (pass_inputs Hp), IH. reflexivity.
Qed.

Lemma epochs_inputs (es : list nat)
    (eblocks : list (list (list (Event Tensor World)))) :
  Forall2 (epoch_passes fw trainloader) es eblocks ->
  map (@inr PyExn Tensor)
      (forward_inputs (concat (map (@concat _) eblocks)))
  = map (fun b => view fw (fst b)) (flat_map (dl_iter trainloader) es).
Proof.
  induction 1 as [|e blocks es eblocks Hp _ IH]; simpl; [reflexivity|].
  rewrite forward_inputs_app, !map_app, (passes_inputs Hp), IH.
  reflexivity.
Qed.

Lemma interrupted_pass_inputs (b : Batch Tensor) (f : Failure)
    (evs : list (Event Tensor World)) :
  interrupted_pass fw b f evs ->
  forward_inputs evs = []
  \/ map (@inr PyExn Tensor) (forward_inputs evs) = [view fw (fst b)].
Proof.
  intros [e Hv -> _|x o l n c e Hv Hn Hc _ _|l e Hp _ _].
  - left; reflexivity.
  - unfold forward_inputs. rewrite select_calls, Hc, Hv.
    unfold pass_calls. destruct n as [|n]; [left; reflexivity|].
    right. unfold pass_calls in Hn.
    do 4 (destruct n as [|n]; [reflexivity|]). destruct n; discriminate Hn.
  - right. eapply pass_inputs; exact Hp.
Qed.

Lemma firstn_split {A} (l1 l2 : list A) (a : A) :
  firstn (length l1) (l1 ++ a :: l2) = l1.
Proof.
  rewrite firstn_app, firstn_all, Nat.sub_diag. simpl. apply app_nil_r.
Qed.

(** X3: the loop feeds the batches to the model in the order the
    traversals yield them, none skipped, none twice: in every run the
    flattened images the model was called on are the views, all of which
    succeeded, of an initial part of the batches of epochs [0], [1], ...;
    when the run returned they are all of them, the criterion got each
    batch's own labels in the same order, and the optimizer stepped once
    per batch. *)
Theorem every_batch_once_in_order (epochs : Z) (w : World) :
  let r := train fw trainloader epochs w in
  let images := map (fun b => view fw (fst b))
                    (all_batches trainloader epochs) in
  (exists rest,
     images = map (@inr PyExn Tensor) (forward_inputs (history r)) ++ rest)
  /\ (result r = inr tt ->
      map (@inr PyExn Tensor) (forward_inputs (history r)) = images
      /\ criterion_labels (history r)
         = map (@snd _ _) (all_batches trainloader epochs)
      /\ steps_made (history r)
         = length (all_batches trainloader epochs)).
Proof.
  unfold train, all_batches; simpl.
  destruct (for_epochs_run fw trainloader (range epochs) w)
    as [_ [_ [eblocks [Hb [_ Hres]]]]].
  destruct (result (for_epochs fw trainloader (range epochs) w))
    as [f|[]].
  - split; [|discriminate].
    destruct Hres as [e [rest [Hn [Hh Hab]]]].
    destruct (nth_error_split _ _ Hn) as [l1 [l2 [Hr Hl]]].
    rewrite Hr, <- Hl, firstn_split in Hb.
    rewrite Hh, Hr, flat_map_app, map_app; simpl. rewrite map_app.
    rewrite forward_inputs_app, map_app, (epochs_inputs Hb).
    destruct Hab as [[blocks [partial [b [-> [Hbg [Hnb Hi]]]]]]
                    |[blocks [-> [Hp _]]]].
    + destruct (nth_error_split _ _ Hnb) as [m1 [m2 [Hm Hlm]]].
      unfold epoch_begun in Hbg.
      rewrite Hm, <- Hlm, firstn_split in Hbg.
      rewrite Hm, map_app; simpl.
      rewrite forward_inputs_app, map_app, (passes_inputs Hbg).
      destruct (interrupted_pass_inputs Hi) as [Hp|Hp]; rewrite Hp.
      * exists (view fw (fst b)
                :: map (fun b => view fw (fst b)) m2
                   ++ map (fun b => view fw (fst b))
                          (flat_map (dl_iter trainloader) l2)).
        simpl. rewrite app_nil_r, <- !app_assoc. reflexivity.
      * exists (map (fun b => view fw (fst b)) m2
                ++ map (fun b => view fw (fst b))
                       (flat_map (dl_iter trainloader) l2)).
        rewrite <- !app_assoc. reflexivity.
    + rewrite (passes_inputs Hp).
      exists (map (fun b => view fw (fst b))
                  (flat_map (dl_iter trainloader) l2)).
      rewrite <- !app_assoc. reflexivity.
  - destruct Hres as [Hh Hl]. rewrite Hl, firstn_all in Hb.
    assert (Hall : map (@inr PyExn Tensor)
                     (forward_inputs
                        (history (for_epochs fw trainloader
                                             (range epochs) w)))
                   = map (fun b => view fw (fst b))
                         (flat_map (dl_iter trainloader) (range epochs))).
    { rewrite Hh. apply (epochs_inputs Hb). }
    split; [exists []; rewrite app_nil_r; symmetry; exact Hall|].
    intros _. split; [exact Hall|]. rewrite Hh. split.
    + assert (Hlab : forall (b : Batch Tensor) (x o l : Tensor),
                flat_map (fun c : Call Tensor =>
                            match c with Criterion _ y => [y] | _ => [] end)
                         (pass_calls b x o l) = [snd b])
        by reflexivity.
      unfold criterion_labels.
      rewrite (@select_epochs _ _ _ Hlab _ _ Hb). apply flat_map_single.
    + assert (Hst : forall (b : Batch Tensor) (x o l : Tensor),
                flat_map (fun c : Call Tensor =>
                            match c with Step _ => [tt] | _ => [] end)
                         (pass_calls b x o l) = [tt])
        by reflexivity.
      unfold steps_made.
      rewrite (@select_epochs _ _ _ Hst _ _ Hb), flat_map_single.
      apply length_map.
Qed.

End DataFlow.

(** ** How runs end *)

Section Endings.

Variables Tensor World Scalar : Type.
Variable fw : Framework Tensor World Scalar.
Variable trainloader : DataLoader Tensor.




(** *** The last call of a run *)






End Endings.

(** ** Gradients left over *)

Section LeftOver.

Variables Tensor World Scalar Params : Type.
Variable fw : Framework Tensor World Scalar.
Variable trainloader : DataLoader Tensor.
Variable params : World -> Params.
Hypothesis Hreset : zero_grad_resets fw params.

Lemma training_pass_forgets (b : Batch Tensor) (rl : Scalar)
    (w1 w2 : World) :
  params w1 = params w2 ->
  agree params (training_pass fw b rl w1) (training_pass fw b rl w2)
  /\ (forall rl', result (training_pass fw b rl w1) = inr rl' ->
        world_after (training_pass fw b rl w1)
        = world_after (training_pass fw b rl w2)).
Proof.
  intros Hp. destruct b as [images labels].
  unfold agree, training_pass, bind, attempt, raise_at, optimizer_zero_grad,
    call_model, call_criterion, loss_backward, optimizer_step, invoke, ret;
    simpl.
  destruct (view fw images) as [e|x]; simpl.
  { repeat split; [exact Hp | discriminate]. }
  pose proof Hreset as Hz. unfold zero_grad_resets in Hz.
  rewrite (Hz w1 w2 Hp).
  destruct (zero_grad fw w2) as [[] w'|e w']; simpl; [|auto].
  destruct (model fw x w') as [output wa|e wa]; simpl; [|auto].
  destruct (criterion fw output labels wa) as [loss wb|e wb]; simpl;
    [|auto].
  destruct (backward fw loss wb) as [[] wc|e wc]; simpl; [|auto].
  destruct (step fw wc) as [[] wd|e wd]; simpl; [|auto].
  destruct (item fw loss) as [e|v]; simpl; auto.
Qed.

Lemma for_batches_forgets (bs : list (Batch Tensor)) (rl : Scalar)
    (w1 w2 : World) :
  params w1 = params w2 ->
  agree params (for_batches fw bs rl w1) (for_batches fw bs rl w2).
Proof.
  intros Hp. destruct bs as [|b bs]; simpl.
  - repeat split; assumption.
  - pose proof (@training_pass_forgets b rl w1 w2 Hp)
      as [[Hr [Ho Hw]] Hsame].
    unfold bind.
    destruct (training_pass fw b rl w1) as [[f|rl1] wa ha oa];
      destruct (training_pass fw b rl w2) as [[f'|rl2] wb hb ob];
      simpl in *; subst; try discriminate.
    + injection Hr as ->. repeat split. exact Hw.
    + injection Hr as ->. rewrite (Hsame rl2 eq_refl).
      destruct (for_batches fw bs rl2 wb) as [res wc hc oc].
      repeat split.
Qed.

Lemma epoch_forgets (e : nat) (w1 w2 : World) :
  params w1 = params w2 ->
  agree params (epoch fw trainloader e w1) (epoch fw trainloader e w2).
Proof.
  intros Hp. unfold epoch, bind.
  pose proof (@for_batches_forgets (dl_iter trainloader e) (py_zero fw)
                                   w1 w2 Hp) as [Hr [Ho Hw]].
  destruct (for_batches fw (dl_iter trainloader e) (py_zero fw) w1)
    as [[ex|rl1] wa ha oa];
    destruct (for_batches fw (dl_iter trainloader e) (py_zero fw) w2)
      as [[ex'|rl2] wb hb ob];
    simpl in *; subst; try discriminate.
  - injection Hr as ->. repeat split; assumption.
  - injection Hr as ->. rewrite !report_run.
    destruct (Nat.eqb (dl_len trainloader) 0); repeat split; assumption.
Qed.

(** X8: gradients left over from earlier backward passes have no effect
    on training.  When [optimizer.zero_grad()] clears everything but the
    parameters, two runs of the loop that start with the same parameters
    end alike, print the same means and leave the same parameters,
    whatever else the two framework states held at the start. *)
Theorem stale_gradients_have_no_effect (epochs : Z) (w1 w2 : World) :
  params w1 = params w2 ->
  let r1 := train fw trainloader epochs w1 in
  let r2 := train fw trainloader epochs w2 in
  result r1 = result r2
  /\ stdout r1 = stdout r2
  /\ params (world_after r1) = params (world_after r2).
Proof.
  unfold train. revert w1 w2.
  induction (range epochs) as [|e es IH]; intros w1 w2 Hp; simpl.
  - repeat split; assumption.
  - pose proof (@epoch_forgets e w1 w2 Hp) as [Hr [Ho Hw]].
    unfold bind.
    destruct (epoch fw trainloader e w1) as [[ex|[]] wa ha oa];
      destruct (epoch fw trainloader e w2) as [[ex'|[]] wb hb ob];
      simpl in *; subst; try discriminate.
    + injection Hr as ->. repeat split; assumption.
    + specialize (IH wa wb Hw). simpl in IH.
      destruct IH as [Hr' [Ho' Hw']].
      destruct (for_epochs fw trainloader es wa) as [r1 wc hc oc];
        destruct (for_epochs fw trainloader es wb) as [r2 wd hd od];
        simpl in *; subst. repeat split; assumption.
Qed.

End LeftOver.

(** * The loop on concrete data *)

Section RegressionRuns.

Import Regression.

Lemma regression_zero_grad_resets : zero_grad_resets fw params.
Proof.
  intros [a b c d] [a' b' c' d'] H. injection H as -> ->. reflexivity.
Qed.

Example regression_two_epochs :
  stdout (train fw loader 2 w0) = [(85 # 2)%Q; (45153 # 2)%Q]
  /\ params (world_after (train fw loader 2 w0)) = ((-764)%Z, (-332)%Z).
Proof. split; vm_compute; reflexivity. Qed.

Example regression_calls_of_first_pass :
  map (@ev_call _ _) (firstn 5 (history (train fw loader 2 w0))) =
    pass_calls (leaf 1, leaf 2) (leaf 1) (mkT 0 1 1) (mkT 4 (-4) (-4)).
Proof. vm_compute; reflexivity. Qed.

Example regression_empty_dataset :
  train fw empty_loader 5 w0
  = mkRun (inl (mkFailure ZeroDivisionError line_print)) w0 [] [].
Proof. vm_compute; reflexivity. Qed.

(** A view that raises on the second batch ends the run between two
    passes: the first pass is complete, no call of the second is made. *)
Example regression_view_raises :
  result (train fw_view_once loader 2 w0)
  = inl (mkFailure (RuntimeError "view size is not compatible") line_view)
  /\ length (history (train fw_view_once loader 2 w0)) = 5
  /\ stdout (train fw_view_once loader 2 w0) = [].
Proof. split; [|split]; vm_compute; reflexivity. Qed.

(** The same exception raised by the model and by the backward pass
    reaches the caller with the line of the statement that raised it. *)
Example regression_same_exception_two_stages :
  result (train fw_forward_rejects loader 2 w0)
  = inl (mkFailure mismatch line_model)
  /\ result (train fw_backward_rejects loader 2 w0)
     = inl (mkFailure mismatch line_backward)
  /\ failing_stage (mkFailure mismatch line_model) = Some StForward
  /\ failing_stage (mkFailure mismatch line_backward) = Some StBackward.
Proof. split; [|split; [|split]]; vm_compute; reflexivity. Qed.

Example regression_stale_gradients :
  stdout (train fw loader 2 w_stale) = stdout (train fw loader 2 w0)
  /\ world_after (train fw loader 2 w_stale)
     = world_after (train fw loader 2 w0)
  /\ world_after (train fw loader 0 w_stale)
     <> world_after (train fw loader 0 w0).
Proof.
  split; [|split]; vm_compute; try reflexivity. discriminate.
Qed.



(** C5, as stated, fails in both directions: a traversal of two batches
    ends in a division by zero when [len(trainloader)] is [0], and a
    traversal of no batch prints [0/2] when [len(trainloader)] is [2]. *)
Lemma division_follows_len_not_batches :
  (dl_iter unsized_loader 0 <> []
   /\ result (epoch fw unsized_loader 0 w0)
      = inl (mkFailure ZeroDivisionError line_print))
  /\ (dl_iter hollow_loader 0 = []
      /\ epoch fw hollow_loader 0 w0 = mkRun (inr tt) w0 [] [0%Q]).
Proof.
  split; split; try discriminate; vm_compute; reflexivity.
Qed.

Lemma train_nonpositive_epochs_witness :
  (-3 <= 0)%Z
  /\ train fw loader (-3) w0 = mkRun (inr tt) w0 [] [].
Proof.
  split; [lia|]. apply (@train_nonpositive_epochs T W Q fw loader (-3) w0).
  lia.
Defined.


Lemma train_resumes_witness :
  (0 <= 1)%Z /\ (0 <= 2)%Z
  /\ train fw loader (1 + 2) w0 =
       bind (train fw loader 1)
            (fun _ => for_epochs fw loader (seq (Z.to_nat 1) (Z.to_nat 2)))
            w0.
Proof.
  split; [lia|]. split; [lia|].
  apply (@train_resumes T W Q fw loader 1 2 w0); lia.
Defined.



Lemma stale_gradients_have_no_effect_witness :
  params w_stale = params w0
  /\ let r1 := train fw loader 2 w_stale in
     let r2 := train fw loader 2 w0 in
     result r1 = result r2
     /\ stdout r1 = stdout r2
     /\ params (world_after r1) = params (world_after r2).
Proof.
  split; [reflexivity|].
  apply (@stale_gradients_have_no_effect T W Q _ fw loader params
           regression_zero_grad_resets 2 w_stale w0).
  reflexivity.
Defined.

End RegressionRuns.
